(** * Velis water-heater device: a shallow embedding of [ariston/velis_device.py]

    The class [AristonVelisDevice] keeps a local cache of plant settings
    (a Python [dict]) and forwards every write to the remote API object
    before updating the cache.  The embedding below follows the class method
    by method:

    - Python values are an inductive type, a [dict] with string keys is a
      [gmap string value];
    - a method is a computation in a small state-and-exception monad over a
      [World]: the device object, the hidden state of the API object, and the
      log of the remote calls issued so far;
    - the API object ([AristonAPI], not part of this file's class) is a
      parameter: two arbitrary stateful, fallible methods.  It is handed
      the six arguments and nothing else, so it has no way to the device's
      dicts;
    - a coroutine method runs from call to completion: what other tasks do
      while it is suspended at its [await] is not part of the model. *)

From Stdlib Require Import PrimFloat.
From stdpp Require Import base option strings list gmap.

Local Open Scope string_scope.
Local Open Scope list_scope.

(** ** Python values *)

Inductive value : Type :=
| VNone
| VBool (b : bool)
| VInt (n : Z)
| VFloat (x : float)
| VStr (s : string).

(** Truth value testing, as [x if c else y] performs it on [c]:
    [None], [False], zero of either numeric type (so [-0.0] too, but not a
    NaN) and the empty string are false, the rest is true. *)
Definition truthy (v : value) : bool :=
  match v with
  | VNone => false
  | VBool b => b
  | VInt n => negb (n =? 0)%Z
  | VFloat x => negb (PrimFloat.eqb x 0%float)
  | VStr s => negb (String.eqb s "")
  end.


(** The two floats a flag is sent as. *)
Definition zero_or_one (v : value) : Prop :=
  v = VFloat 0.0 ∨ v = VFloat 1.0.

(** [d.get(k, dflt)] *)
Definition dict_get (d : gmap string value) (k : string) (dflt : value) : value :=
  match d !! k with
  | Some v => v
  | None => dflt
  end.

(** ** Exceptions and outcomes *)

(** [KeyError] is what a failed subscript raises; whatever the remote API
    raises is carried as is in [ApiError]. *)
Inductive exn (ApiExn : Type) : Type :=
| KeyError (key : string)
| ApiError (e : ApiExn).
Arguments KeyError {ApiExn} key.
Arguments ApiError {ApiExn} e.

Inductive outcome (ApiExn A : Type) : Type :=
| Return (a : A)
| Raise (e : exn ApiExn).
Arguments Return {ApiExn A} a.
Arguments Raise {ApiExn A} e.

(** ** The abstract properties of the class

    [anti_legionella_on_off] and [max_setpoint_temp] are abstract properties
    (``final strings''): a concrete device family supplies them. *)
Class VelisProperties : Type := {
  anti_legionella_on_off : string;
  max_setpoint_temp : string;
  water_heater_maximum_setpoint_temperature_minimum : option float;
  water_heater_maximum_setpoint_temperature_maximum : option float;
}.

(** The two remote methods the class calls. *)
Inductive api_method : Type :=
| SetVelisPlantSetting
| AsyncSetVelisPlantSetting.

Section Velis.

(** What the collaborators leave open: the types of the plant-data
    reference and of the gateway identifier (base classes), the hidden
    state of the API object and the failures it raises, and the constant
    [VelisDeviceProperties.PROC_REQ_TEMP] of [const.py]. *)
Context {PlantData Gateway ApiState ApiExn : Type}.
Context (PROC_REQ_TEMP : string).
Context `{VelisProperties}.

(** The six positional arguments of [set_velis_plant_setting]. *)
Record PlantSettingArgs : Type := {
  arg_plant_data : PlantData;
  arg_gw : Gateway;
  arg_setting : string;
  arg_new_value : value;
  arg_old_value : value;
  arg_umsys : string;
}.

Record api_call : Type := {
  call_method : api_method;
  call_args : PlantSettingArgs;
}.

(** The API object: each method takes the arguments and the object's
    hidden state, and either returns or raises, leaving a new state. *)
Record AristonAPI : Type := {
  set_velis_plant_setting :
    PlantSettingArgs -> ApiState -> outcome ApiExn value * ApiState;
  async_set_velis_plant_setting :
    PlantSettingArgs -> ApiState -> outcome ApiExn value * ApiState;
}.

Definition api_dispatch (api : AristonAPI) (m : api_method) :
  PlantSettingArgs -> ApiState -> outcome ApiExn value * ApiState :=
  match m with
  | SetVelisPlantSetting => set_velis_plant_setting api
  | AsyncSetVelisPlantSetting => async_set_velis_plant_setting api
  end.

Context (api : AristonAPI).

(** What the base classes [AristonDevice] and [AristonVelisBaseDevice]
    give the object: [self.data], [self.plant_data] and [self.gw]. *)
Record AristonDevice : Type := {
  data : gmap string value;
  plant_data : PlantData;
  gw : Gateway;
}.

Record AristonVelisDevice : Type := {
  base : AristonDevice;
  plant_settings : gmap string value;
  umsys : string;
  unit : string;
  language_tag : string;
}.

(** [__init__]: [super().__init__(api, attributes)] is the base classes'
    constructor, taken as the parameter [super_init]; the two keyword
    arguments have defaults.  The degree sign of the unit label is the two
    bytes of its UTF-8 encoding. *)
Definition init (super_init : gmap string value -> AristonDevice)
    (attributes : gmap string value)
    (is_metric : option bool) (language_tag : option string) :
    AristonVelisDevice :=
  let is_metric := default true is_metric in
  let language_tag := default "en-US" language_tag in
  {| base := super_init attributes;
     plant_settings := ∅;
     umsys := if is_metric then "si" else "us";
     unit := if is_metric then "°C" else "°F";
     language_tag := language_tag |}.

(** ** The monad *)

Record World : Type := {
  self : AristonVelisDevice;
  api_state : ApiState;
  calls : list api_call;
}.

Definition M (A : Type) : Type := World -> outcome ApiExn A * World.

Definition ret {A} (a : A) : M A := fun w => (Return a, w).

Definition bind {A B} (m : M A) (k : A -> M B) : M B :=
  fun w =>
    match m w with
    | (Return a, w') => k a w'
    | (Raise e, w') => (Raise e, w')
    end.

Definition raise {A} (e : exn ApiExn) : M A := fun w => (Raise e, w).

#[local] Instance M_ret : MRet M := @ret.
#[local] Instance M_bind : MBind M := fun A B k m => bind m k.

(** What a computation yields, and the world it leaves. *)
Definition result {A} (m : M A) (w : World) : outcome ApiExn A := fst (m w).
Definition after {A} (m : M A) (w : World) : World := snd (m w).

(** [self.f] for an attribute of the object *)
Definition attr {A} (f : AristonVelisDevice -> A) : M A :=
  fun w => (Return (f (self w)), w).

(** [self.plant_settings[k]] as an expression *)
Definition plant_settings_getitem (k : string) : M value :=
  fun w =>
    match plant_settings (self w) !! k with
    | Some v => (Return v, w)
    | None => (Raise (KeyError k), w)
    end.

(** The object after [self.plant_settings[k] = v]: the dict is updated
    in place, the other attributes are the same objects as before. *)
Definition store_plant_setting (k : string) (v : value)
    (d : AristonVelisDevice) : AristonVelisDevice :=
  {| base := base d;
     plant_settings := <[k := v]> (plant_settings d);
     umsys := umsys d;
     unit := unit d;
     language_tag := language_tag d |}.

(** [self.plant_settings[k] = v] as a statement *)
Definition plant_settings_setitem (k : string) (v : value) : M () :=
  fun w =>
    (Return tt,
     {| self := store_plant_setting k v (self w);
        api_state := api_state w;
        calls := calls w |}).

(** [self.api.m(...)], and [await self.api.m(...)] for the coroutine
    method: the call is logged, the API object moves to its new state, and
    what the method returns or raises is the outcome. *)
Definition invoke (m : api_method) (a : PlantSettingArgs) : M value :=
  fun w =>
    let (r, s) := api_dispatch api m a (api_state w) in
    (r, {| self := self w;
           api_state := s;
           calls := calls w ++ [ {| call_method := m; call_args := a |} ] |}).

(** ** The methods of [AristonVelisDevice] *)

Definition water_anti_leg_value : M value :=
  d ← attr plant_settings;
  mret (dict_get d anti_legionella_on_off VNone).

Definition proc_req_temp_value : M value :=
  d ← attr (data ∘ base);
  mret (dict_get d PROC_REQ_TEMP VNone).

Definition set_antilegionella (anti_leg : bool) : M value :=
  a1 ← attr (plant_data ∘ base);
  a2 ← attr (gw ∘ base);
  let a3 := anti_legionella_on_off in
  let a4 := VFloat (if anti_leg then 1.0 else 0.0) in
  old ← plant_settings_getitem anti_legionella_on_off;
  let a5 := VFloat (if truthy old then 1.0 else 0.0) in
  a6 ← attr umsys;
  _ ← invoke SetVelisPlantSetting
        {| arg_plant_data := a1; arg_gw := a2; arg_setting := a3;
           arg_new_value := a4; arg_old_value := a5; arg_umsys := a6 |};
  _ ← plant_settings_setitem anti_legionella_on_off (VBool anti_leg);
  mret VNone.

Definition async_set_antilegionella (anti_leg : bool) : M value :=
  a1 ← attr (plant_data ∘ base);
  a2 ← attr (gw ∘ base);
  let a3 := anti_legionella_on_off in
  let a4 := VFloat (if anti_leg then 1.0 else 0.0) in
  old ← plant_settings_getitem anti_legionella_on_off;
  let a5 := VFloat (if truthy old then 1.0 else 0.0) in
  a6 ← attr umsys;
  _ ← invoke AsyncSetVelisPlantSetting
        {| arg_plant_data := a1; arg_gw := a2; arg_setting := a3;
           arg_new_value := a4; arg_old_value := a5; arg_umsys := a6 |};
  _ ← plant_settings_setitem anti_legionella_on_off (VBool anti_leg);
  mret VNone.

Definition set_max_setpoint_temp (max_setpoint_temp' : float) : M value :=
  a1 ← attr (plant_data ∘ base);
  a2 ← attr (gw ∘ base);
  let a3 := max_setpoint_temp in
  let a4 := VFloat max_setpoint_temp' in
  a5 ← plant_settings_getitem max_setpoint_temp;
  a6 ← attr umsys;
  _ ← invoke SetVelisPlantSetting
        {| arg_plant_data := a1; arg_gw := a2; arg_setting := a3;
           arg_new_value := a4; arg_old_value := a5; arg_umsys := a6 |};
  _ ← plant_settings_setitem max_setpoint_temp (VFloat max_setpoint_temp');
  mret VNone.

Definition async_set_max_setpoint_temp (max_setpoint_temp' : float) : M value :=
  a1 ← attr (plant_data ∘ base);
  a2 ← attr (gw ∘ base);
  let a3 := max_setpoint_temp in
  let a4 := VFloat max_setpoint_temp' in
  a5 ← plant_settings_getitem max_setpoint_temp;
  a6 ← attr umsys;
  _ ← invoke AsyncSetVelisPlantSetting
        {| arg_plant_data := a1; arg_gw := a2; arg_setting := a3;
           arg_new_value := a4; arg_old_value := a5; arg_umsys := a6 |};
  _ ← plant_settings_setitem max_setpoint_temp (VFloat max_setpoint_temp');
  mret VNone.

Definition water_heater_maximum_setpoint_temperature : M value :=
  d ← attr plant_settings;
  mret (dict_get d max_setpoint_temp VNone).

Definition water_heater_minimum_temperature : M float := mret 40.0%float.

Definition water_heater_maximum_temperature : M value :=
  water_heater_maximum_setpoint_temperature.

Definition water_heater_temperature_step : M Z := mret 1%Z.

Definition water_heater_temperature_decimals : M Z := mret 0%Z.

Definition water_heater_temperature_unit : M string := attr unit.

(** ** The operations of the class, as data

    A write is one of the two settings with its argument; [call_setter]
    picks the method of the class that issues it through the remote
    method [m] (the plain one or the coroutine). *)

Inductive setting_write : Type :=
| Antilegionella (anti_leg : bool)
| MaxSetpointTemp (v : float).

Definition call_setter (m : api_method) (x : setting_write) : M value :=
  match m, x with
  | SetVelisPlantSetting, Antilegionella b => set_antilegionella b
  | AsyncSetVelisPlantSetting, Antilegionella b => async_set_antilegionella b
  | SetVelisPlantSetting, MaxSetpointTemp v => set_max_setpoint_temp v
  | AsyncSetVelisPlantSetting, MaxSetpointTemp v => async_set_max_setpoint_temp v
  end.

(** The key a write targets, the object it leaves in the cache, and the
    ``new'' and ``old'' arguments it sends. *)
Definition target_key (x : setting_write) : string :=
  match x with
  | Antilegionella _ => anti_legionella_on_off
  | MaxSetpointTemp _ => max_setpoint_temp
  end.

Definition cached_value (x : setting_write) : value :=
  match x with
  | Antilegionella b => VBool b
  | MaxSetpointTemp v => VFloat v
  end.

Definition new_value_sent (x : setting_write) : value :=
  match x with
  | Antilegionella b => VFloat (if b then 1.0 else 0.0)
  | MaxSetpointTemp v => VFloat v
  end.

Definition old_value_sent (x : setting_write) (old : value) : value :=
  match x with
  | Antilegionella _ => VFloat (if truthy old then 1.0 else 0.0)
  | MaxSetpointTemp _ => old
  end.

Definition args_sent (x : setting_write) (d : AristonVelisDevice)
    (old : value) : PlantSettingArgs :=
  {| arg_plant_data := plant_data (base d);
     arg_gw := gw (base d);
     arg_setting := target_key x;
     arg_new_value := new_value_sent x;
     arg_old_value := old_value_sent x old;
     arg_umsys := umsys d |}.

(** The setter as the specification describes it, one operation for both
    settings and both remote methods: read the old value from the cache
    (a missing key is a [KeyError]); invoke the remote method with the six
    arguments; when the call returns, update the cache; when it raises,
    leave the cache alone and let the failure through. *)
Definition setter_spec (m : api_method) (x : setting_write) : M value :=
  fun w =>
    match plant_settings (self w) !! target_key x with
    | None => (Raise (KeyError (target_key x)), w)
    | Some old =>
        let a := args_sent x (self w) old in
        let log := calls w ++ [ {| call_method := m; call_args := a |} ] in
        match api_dispatch api m a (api_state w) with
        | (Return _, s) =>
            (Return VNone,
             {| self := store_plant_setting (target_key x) (cached_value x) (self w);
                api_state := s;
                calls := log |})
        | (Raise e, s) =>
            (Raise e, {| self := self w; api_state := s; calls := log |})
        end
    end.

(** The read accessors with a default, and the mapping entry each reads. *)
Inductive accessor : Type :=
| WaterAntiLegValue
| ProcReqTempValue
| WaterHeaterMaximumSetpointTemperature.

Definition read_accessor (g : accessor) : M value :=
  match g with
  | WaterAntiLegValue => water_anti_leg_value
  | ProcReqTempValue => proc_req_temp_value
  | WaterHeaterMaximumSetpointTemperature =>
      water_heater_maximum_setpoint_temperature
  end.

Definition cached_entry (g : accessor) (d : AristonVelisDevice) : option value :=
  match g with
  | WaterAntiLegValue => plant_settings d !! anti_legionella_on_off
  | ProcReqTempValue => data (base d) !! PROC_REQ_TEMP
  | WaterHeaterMaximumSetpointTemperature => plant_settings d !! max_setpoint_temp
  end.

(** Every public operation of the class; [perform] runs one and keeps
    the world it leaves, whether it returned or raised. *)
Inductive operation : Type :=
| OpWrite (m : api_method) (x : setting_write)
| OpRead (g : accessor)
| OpWaterHeaterMinimumTemperature
| OpWaterHeaterMaximumTemperature
| OpWaterHeaterTemperatureStep
| OpWaterHeaterTemperatureDecimals
| OpWaterHeaterTemperatureUnit.

Definition perform (o : operation) (w : World) : World :=
  match o with
  | OpWrite m x => after (call_setter m x) w
  | OpRead g => after (read_accessor g) w
  | OpWaterHeaterMinimumTemperature => after water_heater_minimum_temperature w
  | OpWaterHeaterMaximumTemperature => after water_heater_maximum_temperature w
  | OpWaterHeaterTemperatureStep => after water_heater_temperature_step w
  | OpWaterHeaterTemperatureDecimals => after water_heater_temperature_decimals w
  | OpWaterHeaterTemperatureUnit => after water_heater_temperature_unit w
  end.

Definition perform_all (os : list operation) (w : World) : World :=
  fold_left (fun w o => perform o w) os w.

(** The operations that call a setter. *)
Definition is_write (o : operation) : bool :=
  match o with
  | OpWrite _ _ => true
  | _ => false
  end.

(** Two writes of the same setting. *)
Definition same_setting (x1 x2 : setting_write) : bool :=
  match x1, x2 with
  | Antilegionella _, Antilegionella _ => true
  | MaxSetpointTemp _, MaxSetpointTemp _ => true
  | _, _ => false
  end.

(** A remote call that names the device [d]: its plant data, gateway and
    unit system, and one of the two setting keys of the class. *)
Definition names_device (d : AristonVelisDevice) (c : api_call) : Prop :=
  arg_plant_data (call_args c) = plant_data (base d) ∧
  arg_gw (call_args c) = gw (base d) ∧
  arg_umsys (call_args c) = umsys d ∧
  (arg_setting (call_args c) = anti_legionella_on_off ∨
   arg_setting (call_args c) = max_setpoint_temp).

End Velis.

(** ** A concrete device

    A metric device whose cache a refresh has filled with
    [{"AntiLeg": False, "MaxSetpoint": 60.0}], an API object that accepts
    every write and counts the requests it served, and one that is down. *)

Definition scenario_properties : VelisProperties := {|
  anti_legionella_on_off := "AntiLeg";
  max_setpoint_temp := "MaxSetpoint";
  water_heater_maximum_setpoint_temperature_minimum := Some 40.0%float;
  water_heater_maximum_setpoint_temperature_maximum := Some 80.0%float;
|}.

Definition scenario_super_init (attributes : gmap string value) :
    @AristonDevice string string :=
  {| data := ∅; plant_data := "PD_VELIS"; gw := "F0AD4E0A1B2C" |}.

Definition scenario_accepting_api : @AristonAPI string string nat string :=
  {| set_velis_plant_setting := fun _ n => (Return VNone, S n);
     async_set_velis_plant_setting := fun _ n => (Return VNone, S n) |}.

Definition scenario_failing_api : @AristonAPI string string nat string :=
  {| set_velis_plant_setting := fun _ n => (Raise (ApiError "HTTP 503"), n);
     async_set_velis_plant_setting := fun _ n => (Raise (ApiError "HTTP 503"), n) |}.

(** An API object whose methods return the server's answer. *)
Definition scenario_answering_api : @AristonAPI string string nat string :=
  {| set_velis_plant_setting := fun _ n => (Return (VStr "OK"), S n);
     async_set_velis_plant_setting := fun _ n => (Return (VStr "OK"), S n) |}.

Definition scenario_new_device : @AristonVelisDevice string string :=
  init scenario_super_init ∅ (Some true) None.

Definition scenario_device : @AristonVelisDevice string string :=
  store_plant_setting "MaxSetpoint" (VFloat 60.0)
    (store_plant_setting "AntiLeg" (VBool false) scenario_new_device).

Definition scenario_world (d : @AristonVelisDevice string string) :
    @World string string nat :=
  {| self := d; api_state := 0; calls := [] |}.

(** * Properties *)


Section VelisTheory.

Context {PlantData Gateway ApiState ApiExn : Type}.
Context (PROC_REQ_TEMP : string).
Context `{VelisProperties}.
Context (api : @AristonAPI PlantData Gateway ApiState ApiExn).

#[local] Abbreviation World := (@World PlantData Gateway ApiState).
#[local] Abbreviation AristonDevice := (@AristonDevice PlantData Gateway).
#[local] Abbreviation PlantSettingArgs := (@PlantSettingArgs PlantData Gateway).
#[local] Abbreviation api_call := (@api_call PlantData Gateway).
#[local] Abbreviation result := (result (ApiExn := ApiExn)).
#[local] Abbreviation after := (after (ApiExn := ApiExn)).

(** ** Equations of the methods *)

Ltac run_method :=
  cbv [call_setter setter_spec set_antilegionella async_set_antilegionella
       set_max_setpoint_temp async_set_max_setpoint_temp
       water_anti_leg_value proc_req_temp_value
       water_heater_maximum_setpoint_temperature
       water_heater_maximum_temperature water_heater_minimum_temperature
       water_heater_temperature_step water_heater_temperature_decimals
       water_heater_temperature_unit read_accessor
       mbind mret M_bind M_ret bind ret attr plant_settings_getitem
       plant_settings_setitem invoke args_sent target_key cached_value
       new_value_sent old_value_sent compose result after fst snd];
  cbn [self api_state calls].

(** [call_setter] is only a name for the four methods. *)
Lemma call_setter_methods (b : bool) (v : float) :
  call_setter api SetVelisPlantSetting (Antilegionella b) =
    set_antilegionella api b ∧
  call_setter api AsyncSetVelisPlantSetting (Antilegionella b) =
    async_set_antilegionella api b ∧
  call_setter api SetVelisPlantSetting (MaxSetpointTemp v) =
    set_max_setpoint_temp api v ∧
  call_setter api AsyncSetVelisPlantSetting (MaxSetpointTemp v) =
    async_set_max_setpoint_temp api v.
Proof. repeat split. Qed.

Lemma call_setter_spec (m : api_method) (x : setting_write) (w : World) :
  call_setter api m x w = setter_spec api m x w.
Proof.
  destruct m, x; run_method;
    (destruct (plant_settings (self w) !! _) as [old|]; [|reflexivity]);
    match goal with
    | |- context [api_dispatch api ?m ?a ?s] =>
        destruct (api_dispatch api m a s) as [[r|e] s']
    end; reflexivity.
Qed.

(** The three ways a write can go, read off [setter_spec]. *)

Lemma call_setter_missing (m : api_method) (x : setting_write) (w : World) :
  plant_settings (self w) !! target_key x = None →
  call_setter api m x w = (Raise (KeyError (target_key x)), w).
Proof.
  intros Hk. rewrite call_setter_spec. unfold setter_spec. now rewrite Hk.
Qed.

Lemma call_setter_returns (m : api_method) (x : setting_write) (w : World)
    (old r : value) (s : ApiState) :
  plant_settings (self w) !! target_key x = Some old →
  api_dispatch api m (args_sent x (self w) old) (api_state w) = (Return r, s) →
  call_setter api m x w =
    (Return VNone,
     {| self := store_plant_setting (target_key x) (cached_value x) (self w);
        api_state := s;
        calls := calls w ++
                 [ {| call_method := m;
                      call_args := args_sent x (self w) old |} ] |}).
Proof.
  intros Hk Hr. rewrite call_setter_spec. unfold setter_spec.
  rewrite Hk. cbv zeta. now rewrite Hr.
Qed.

Lemma call_setter_raises (m : api_method) (x : setting_write) (w : World)
    (old : value) (e : exn ApiExn) (s : ApiState) :
  plant_settings (self w) !! target_key x = Some old →
  api_dispatch api m (args_sent x (self w) old) (api_state w) = (Raise e, s) →
  call_setter api m x w =
    (Raise e,
     {| self := self w;
        api_state := s;
        calls := calls w ++
                 [ {| call_method := m;
                      call_args := args_sent x (self w) old |} ] |}).
Proof.
  intros Hk Hr. rewrite call_setter_spec. unfold setter_spec.
  rewrite Hk. cbv zeta. now rewrite Hr.
Qed.

(** A write that returned found its key and had the remote method return. *)
Lemma call_setter_returned_inv (m : api_method) (x : setting_write)
    (w : World) (r : value) :
  result (call_setter api m x) w = Return r →
  ∃ (old r' : value) (s : ApiState),
    plant_settings (self w) !! target_key x = Some old ∧
    api_dispatch api m (args_sent x (self w) old) (api_state w) = (Return r', s).
Proof.
  unfold result. rewrite call_setter_spec. unfold setter_spec.
  destruct (plant_settings (self w) !! target_key x) as [old|]; [|discriminate].
  cbv zeta.
  destruct (api_dispatch api m (args_sent x (self w) old) (api_state w))
    as [[r'|e] s] eqn:Hr; [|discriminate].
  intros _. now exists old, r', s.
Qed.

(** Reading back through the accessors. *)
Lemma water_anti_leg_value_eq (w : World) :
  water_anti_leg_value (ApiExn := ApiExn) w =
  (Return (default VNone (plant_settings (self w) !! anti_legionella_on_off)), w).
Proof.
  run_method. unfold dict_get.
  now destruct (plant_settings (self w) !! anti_legionella_on_off).
Qed.

Lemma proc_req_temp_value_eq (w : World) :
  proc_req_temp_value (ApiExn := ApiExn) PROC_REQ_TEMP w =
  (Return (default VNone (data (base (self w)) !! PROC_REQ_TEMP)), w).
Proof.
  run_method. unfold dict_get.
  now destruct (data (base (self w)) !! PROC_REQ_TEMP).
Qed.

Lemma water_heater_maximum_setpoint_temperature_eq (w : World) :
  water_heater_maximum_setpoint_temperature (ApiExn := ApiExn) w =
  (Return (default VNone (plant_settings (self w) !! max_setpoint_temp)), w).
Proof.
  run_method. unfold dict_get.
  now destruct (plant_settings (self w) !! max_setpoint_temp).
Qed.

Lemma read_accessor_eq (g : accessor) (w : World) :
  read_accessor (ApiExn := ApiExn) PROC_REQ_TEMP g w =
  (Return (default VNone (cached_entry PROC_REQ_TEMP g (self w))), w).
Proof.
  destruct g; cbn [read_accessor cached_entry].
  - apply water_anti_leg_value_eq.
  - apply proc_req_temp_value_eq.
  - apply water_heater_maximum_setpoint_temperature_eq.
Qed.

(** ** The setters: success *)

(** C1. Whenever [set_antilegionella(flag)] or its coroutine variant
    returns, the cache held an old value under the anti-legionella key, the
    remote method of that variant was invoked exactly once more, with the
    plant data, the gateway, the key, 1.0 or 0.0 for [flag], 1.0 or 0.0 for
    the truth value of the old cache entry, and [umsys]; the remote method
    returned; and afterwards [water_anti_leg_value] is [flag]. *)
Theorem set_antilegionella_forwards_then_caches
    (m : api_method) (flag : bool) (w : World) (r : value) :
  result (call_setter api m (Antilegionella flag)) w = Return r →
  ∃ (old r' : value),
    plant_settings (self w) !! anti_legionella_on_off = Some old ∧
    calls (after (call_setter api m (Antilegionella flag)) w) =
      calls w ++
      [ {| call_method := m;
           call_args :=
             {| arg_plant_data := plant_data (base (self w));
                arg_gw := gw (base (self w));
                arg_setting := anti_legionella_on_off;
                arg_new_value := VFloat (if flag then 1.0 else 0.0);
                arg_old_value := VFloat (if truthy old then 1.0 else 0.0);
                arg_umsys := umsys (self w) |} |} ] ∧
    api_dispatch api m
      {| arg_plant_data := plant_data (base (self w));
         arg_gw := gw (base (self w));
         arg_setting := anti_legionella_on_off;
         arg_new_value := VFloat (if flag then 1.0 else 0.0);
         arg_old_value := VFloat (if truthy old then 1.0 else 0.0);
         arg_umsys := umsys (self w) |} (api_state w) =
      (Return r', api_state (after (call_setter api m (Antilegionella flag)) w)) ∧
    result water_anti_leg_value
      (after (call_setter api m (Antilegionella flag)) w) = Return (VBool flag).
Proof.
  intros Hret.
  destruct (call_setter_returned_inv _ _ _ _ Hret) as (old & r' & s & Hk & Hr).
  exists old, r'. unfold after.
  rewrite (call_setter_returns _ _ _ _ _ _ Hk Hr). cbn [snd calls api_state].
  repeat split; try assumption.
  unfold result. rewrite water_anti_leg_value_eq. cbn.
  now rewrite lookup_insert_eq.
Qed.



(** ** The setters: failure *)

(** C3. When the remote method raises [e] on the call a setter issues
    (either setting, either variant), the setter raises that same [e], and
    the device object, its [plant_settings] and in particular the entry of
    the target key, is what it was before the call. *)
Theorem remote_failure_propagates_and_keeps_cache
    (m : api_method) (x : setting_write) (w : World)
    (old : value) (e : exn ApiExn) (s : ApiState) :
  plant_settings (self w) !! target_key x = Some old →
  api_dispatch api m (args_sent x (self w) old) (api_state w) = (Raise e, s) →
  result (call_setter api m x) w = Raise e ∧
  self (after (call_setter api m x) w) = self w ∧
  plant_settings (self (after (call_setter api m x) w)) !! target_key x = Some old.
Proof.
  intros Hk Hr. unfold result, after.
  rewrite (call_setter_raises _ _ _ _ _ _ Hk Hr). cbn [fst snd self].
  auto.
Qed.

(** C4. With no entry under the anti-legionella key, [set_antilegionella]
    and its coroutine variant raise [KeyError] for that key and leave the
    world, so [plant_settings] too, as it was: the key is still absent. *)
Theorem set_antilegionella_missing_key
    (m : api_method) (flag : bool) (w : World) :
  plant_settings (self w) !! anti_legionella_on_off = None →
  result (call_setter api m (Antilegionella flag)) w =
    Raise (KeyError anti_legionella_on_off) ∧
  after (call_setter api m (Antilegionella flag)) w = w ∧
  plant_settings (self (after (call_setter api m (Antilegionella flag)) w))
    !! anti_legionella_on_off = None.
Proof.
  intros Hk. unfold result, after.
  rewrite (call_setter_missing m (Antilegionella flag) w Hk).
  cbn [fst snd target_key]. auto.
Qed.

(** ** Synchronous and coroutine variants *)

(** C5. For either setting, every argument and every starting world:
    each variant is the one operation [setter_spec] run through its own
    remote method; the two variants hand their remote methods the same
    argument records; and where the two remote methods answer alike in the
    starting API state, the variants have the same outcome and leave the
    same device object and API state. *)
Theorem sync_async_identical_semantics (x : setting_write) (w : World) :
  (∀ m : api_method, call_setter api m x w = setter_spec api m x w) ∧
  map call_args (calls (after (call_setter api SetVelisPlantSetting x) w)) =
    map call_args (calls (after (call_setter api AsyncSetVelisPlantSetting x) w)) ∧
  ((∀ a : PlantSettingArgs,
      set_velis_plant_setting api a (api_state w) =
      async_set_velis_plant_setting api a (api_state w)) →
   result (call_setter api SetVelisPlantSetting x) w =
     result (call_setter api AsyncSetVelisPlantSetting x) w ∧
   self (after (call_setter api SetVelisPlantSetting x) w) =
     self (after (call_setter api AsyncSetVelisPlantSetting x) w) ∧
   api_state (after (call_setter api SetVelisPlantSetting x) w) =
     api_state (after (call_setter api AsyncSetVelisPlantSetting x) w)).
Proof.
  split; [intros m; apply call_setter_spec|].
  unfold result, after. rewrite !call_setter_spec. unfold setter_spec.
  destruct (plant_settings (self w) !! target_key x) as [old|];
    [|now split]. cbv zeta. cbn [api_dispatch].
  split.
  - destruct (set_velis_plant_setting api _ _) as [[?|?] ?],
      (async_set_velis_plant_setting api _ _) as [[?|?] ?];
      cbn [snd calls]; now rewrite !map_app.
  - intros Hsame. rewrite Hsame.
    now destruct (async_set_velis_plant_setting api _ _) as [[?|?] ?].
Qed.

(** ** The read accessors *)

(** C6. [water_anti_leg_value], [proc_req_temp_value] and
    [water_heater_maximum_setpoint_temperature] leave the world (device
    object, API state and call log) exactly as it was; with no entry under
    their key they return [None], and with an entry they return it; they
    never raise. *)
Theorem accessors_are_pure_reads (g : accessor) (w : World) :
  after (read_accessor (ApiExn := ApiExn) PROC_REQ_TEMP g) w = w ∧
  (cached_entry PROC_REQ_TEMP g (self w) = None →
     result (read_accessor PROC_REQ_TEMP g) w = Return VNone) ∧
  (∀ v : value, cached_entry PROC_REQ_TEMP g (self w) = Some v →
     result (read_accessor PROC_REQ_TEMP g) w = Return v).
Proof.
  unfold result, after. rewrite read_accessor_eq. cbn [fst snd].
  split; [reflexivity|].
  split; [intros ->|intros v ->]; reflexivity.
Qed.

(** ** Units and constants *)

(** C7. Constructed with [is_metric=True] the device has [umsys] ["si"]
    and [unit] ["°C"], with [is_metric=False] it has ["us"] and ["°F"]; and
    [water_heater_temperature_unit] returns the [unit] attribute, so the
    label the device was constructed with. *)
Theorem unit_system_of_construction
    (super_init : gmap string value -> AristonDevice)
    (attributes : gmap string value) (tag : option string) :
  umsys (init super_init attributes (Some true) tag) = "si" ∧
  unit (init super_init attributes (Some true) tag) = "°C" ∧
  umsys (init super_init attributes (Some false) tag) = "us" ∧
  unit (init super_init attributes (Some false) tag) = "°F" ∧
  (∀ w : World,
     water_heater_temperature_unit (ApiState := ApiState) (ApiExn := ApiExn) w =
     (Return (unit (self w)), w)) ∧
  (∀ (is_metric : bool) (s : ApiState) (log : list api_call),
     result water_heater_temperature_unit
       {| self := init super_init attributes (Some is_metric) tag;
          api_state := s; calls := log |} =
     Return (if is_metric then "°C" else "°F")).
Proof.
  repeat split.
Qed.

(** C8. [water_heater_minimum_temperature] returns 40.0 in every world,
    and leaves the world alone. *)
Theorem water_heater_minimum_temperature_is_40 (w : World) :
  water_heater_minimum_temperature (ApiExn := ApiExn) w =
  (Return 40.0%float, w).
Proof. reflexivity. Qed.

(** ** Frame *)

Lemma call_setter_frame (m : api_method) (x : setting_write) (w : World) :
  base (self (after (call_setter api m x) w)) = base (self w) ∧
  umsys (self (after (call_setter api m x) w)) = umsys (self w) ∧
  unit (self (after (call_setter api m x) w)) = unit (self w) ∧
  language_tag (self (after (call_setter api m x) w)) = language_tag (self w).
Proof.
  unfold after. rewrite call_setter_spec. unfold setter_spec.
  destruct (plant_settings (self w) !! target_key x) as [old|];
    [|now repeat split]. cbv zeta.
  now destruct (api_dispatch api m _ _) as [[?|?] ?].
Qed.

Lemma call_setter_other_keys (m : api_method) (x : setting_write)
    (w : World) (k : string) :
  k ≠ target_key x →
  plant_settings (self (after (call_setter api m x) w)) !! k =
  plant_settings (self w) !! k.
Proof.
  intros Hk. unfold after. rewrite call_setter_spec. unfold setter_spec.
  destruct (plant_settings (self w) !! target_key x) as [old|];
    [|reflexivity]. cbv zeta.
  destruct (api_dispatch api m _ _) as [[?|?] ?]; cbn; [|reflexivity].
  now rewrite lookup_insert_ne.
Qed.

Lemma perform_frame (o : operation) (w : World) :
  base (self (perform PROC_REQ_TEMP api o w)) = base (self w) ∧
  umsys (self (perform PROC_REQ_TEMP api o w)) = umsys (self w) ∧
  unit (self (perform PROC_REQ_TEMP api o w)) = unit (self w) ∧
  language_tag (self (perform PROC_REQ_TEMP api o w)) =
    language_tag (self w).
Proof.
  destruct o as [m x|g| | | | | ]; cbn [perform].
  - apply call_setter_frame.
  - unfold after. now rewrite read_accessor_eq.
  - now repeat split.
  - unfold water_heater_maximum_temperature, after.
    now rewrite water_heater_maximum_setpoint_temperature_eq.
  - now repeat split.
  - now repeat split.
  - now repeat split.
Qed.

Lemma perform_all_frame (os : list operation) (w : World) :
  base (self (perform_all PROC_REQ_TEMP api os w)) = base (self w) ∧
  umsys (self (perform_all PROC_REQ_TEMP api os w)) = umsys (self w) ∧
  unit (self (perform_all PROC_REQ_TEMP api os w)) = unit (self w) ∧
  language_tag (self (perform_all PROC_REQ_TEMP api os w)) =
    language_tag (self w).
Proof.
  revert w. induction os as [|o os IH]; intros w; [now repeat split|].
  cbn [perform_all fold_left].
  fold (perform_all PROC_REQ_TEMP api os (perform PROC_REQ_TEMP api o w)).
  destruct (IH (perform PROC_REQ_TEMP api o w)) as (-> & -> & -> & ->).
  apply perform_frame.
Qed.

(** C9. Over any sequence of operations of the class, each returning or
    raising, [umsys], [unit] and [language_tag] stay what they were; and a
    setter, whichever way it ends, leaves [data] and every [plant_settings]
    entry other than the one under its own key as they were. *)
Theorem operations_frame :
  (∀ (os : list operation) (w : World),
     umsys (self (perform_all PROC_REQ_TEMP api os w)) = umsys (self w) ∧
     unit (self (perform_all PROC_REQ_TEMP api os w)) = unit (self w) ∧
     language_tag (self (perform_all PROC_REQ_TEMP api os w)) =
       language_tag (self w)) ∧
  (∀ (m : api_method) (x : setting_write) (w : World),
     data (base (self (after (call_setter api m x) w))) = data (base (self w)) ∧
     ∀ k : string, k ≠ target_key x →
       plant_settings (self (after (call_setter api m x) w)) !! k =
       plant_settings (self w) !! k).
Proof.
  split.
  - intros os w. destruct (perform_all_frame os w) as (_ & ? & ? & ?). auto.
  - intros m x w. split.
    + destruct (call_setter_frame m x w) as (-> & _). reflexivity.
    + intros k. apply call_setter_other_keys.
Qed.

End VelisTheory.

(** ** A missing key stops the setter before the remote call *)

Section NoRemoteCall.

Context {PlantData Gateway ApiState ApiExn : Type}.
Context `{VelisProperties}.

(** C10. With no entry under the target key, a setter (either setting,
    either variant) raises [KeyError] with the call log and the API state
    untouched, and does so whatever the API object is: no method of it is
    run. *)
Theorem missing_key_never_reaches_remote
    (api api' : @AristonAPI PlantData Gateway ApiState ApiExn)
    (m : api_method) (x : setting_write) (w : World) :
  plant_settings (self w) !! target_key x = None →
  result (call_setter api m x) w = Raise (KeyError (target_key x)) ∧
  calls (after (call_setter api m x) w) = calls w ∧
  api_state (after (call_setter api m x) w) = api_state w ∧
  call_setter api m x w = call_setter api' m x w.
Proof.
  intros Hk. unfold result, after.
  rewrite !(call_setter_missing _ m x w Hk). auto.
Qed.

End NoRemoteCall.

(** ** How the operations compose *)

Section VelisSequences.

Context {PlantData Gateway ApiState ApiExn : Type}.
Context (PROC_REQ_TEMP : string).
Context `{VelisProperties}.
Context (api : @AristonAPI PlantData Gateway ApiState ApiExn).

#[local] Abbreviation World := (@World PlantData Gateway ApiState).
#[local] Abbreviation AristonDevice := (@AristonDevice PlantData Gateway).
#[local] Abbreviation api_call := (@api_call PlantData Gateway).
#[local] Abbreviation PlantSettingArgs := (@PlantSettingArgs PlantData Gateway).
#[local] Abbreviation result := (result (ApiExn := ApiExn)).
#[local] Abbreviation after := (after (ApiExn := ApiExn)).

(** The three ways a setter call can go. *)
Lemma call_setter_cases (m : api_method) (x : setting_write) (w : World) :
  (plant_settings (self w) !! target_key x = None ∧
   call_setter api m x w = (Raise (KeyError (target_key x)), w)) ∨
  (∃ (old r : value) (s : ApiState),
     plant_settings (self w) !! target_key x = Some old ∧
     api_dispatch api m (args_sent x (self w) old) (api_state w) = (Return r, s) ∧
     call_setter api m x w =
       (Return VNone,
        {| self := store_plant_setting (target_key x) (cached_value x) (self w);
           api_state := s;
           calls := calls w ++
                    [ {| call_method := m;
                         call_args := args_sent x (self w) old |} ] |})) ∨
  (∃ (old : value) (e : exn ApiExn) (s : ApiState),
     plant_settings (self w) !! target_key x = Some old ∧
     api_dispatch api m (args_sent x (self w) old) (api_state w) = (Raise e, s) ∧
     call_setter api m x w =
       (Raise e,
        {| self := self w;
           api_state := s;
           calls := calls w ++
                    [ {| call_method := m;
                         call_args := args_sent x (self w) old |} ] |})).
Proof.
  destruct (plant_settings (self w) !! target_key x) as [old|] eqn:Hk.
  - right.
    destruct (api_dispatch api m (args_sent x (self w) old) (api_state w))
      as [[r|e] s] eqn:Hr.
    + left. exists old, r, s. repeat split; try assumption.
      now apply call_setter_returns with (r := r).
    + right. exists old, e, s. repeat split; try assumption.
      now apply call_setter_raises.
  - left. split; [reflexivity|]. now apply call_setter_missing.
Qed.

(** The world a returning setter call leaves. *)
Lemma call_setter_returned_world (m : api_method) (x : setting_write)
    (w : World) (r : value) :
  result (call_setter api m x) w = Return r →
  ∃ (old : value) (s : ApiState),
    plant_settings (self w) !! target_key x = Some old ∧
    after (call_setter api m x) w =
      {| self := store_plant_setting (target_key x) (cached_value x) (self w);
         api_state := s;
         calls := calls w ++
                  [ {| call_method := m;
                       call_args := args_sent x (self w) old |} ] |}.
Proof.
  unfold result, after.
  destruct (call_setter_cases m x w)
    as [[Hk Heq]|[(old & r' & s & Hk & Hr & Heq)|(old & e & s & Hk & Hr & Heq)]];
    rewrite Heq; cbn [fst snd]; intros Hres; try discriminate.
  now exists old, s.
Qed.

(** The call log after a setter call whose key is present. *)
Lemma call_setter_logged (m : api_method) (x : setting_write) (w : World)
    (old : value) :
  plant_settings (self w) !! target_key x = Some old →
  calls (after (call_setter api m x) w) =
    calls w ++ [ {| call_method := m; call_args := args_sent x (self w) old |} ].
Proof.
  intros Hk. unfold after.
  destruct (call_setter_cases m x w)
    as [[Hk' Heq]|[(old' & r' & s & Hk' & Hr & Heq)|(old' & e & s & Hk' & Hr & Heq)]];
    rewrite Heq; cbn [snd calls]; congruence.
Qed.

(** An operation that is not a write leaves the world alone. *)
Lemma perform_read (o : operation) (w : World) :
  is_write o = false → perform PROC_REQ_TEMP api o w = w.
Proof.
  destruct o as [m x|g| | | | | ]; cbn [is_write perform]; intros Hw;
    try discriminate; try reflexivity.
  unfold after. now rewrite read_accessor_eq.
Qed.

(** X1. A setter call that raises, for whatever reason, leaves the device
    object as it was; and it raises either [KeyError] for its own key, the
    key being absent and no remote call made, or what the remote method
    raised on the call it was handed. *)
Theorem setter_failure_leaves_device
    (m : api_method) (x : setting_write) (w : World) (e : exn ApiExn) :
  result (call_setter api m x) w = Raise e →
  self (after (call_setter api m x) w) = self w ∧
  ((plant_settings (self w) !! target_key x = None ∧
    e = KeyError (target_key x) ∧
    calls (after (call_setter api m x) w) = calls w) ∨
   (∃ (old : value) (s : ApiState),
      plant_settings (self w) !! target_key x = Some old ∧
      api_dispatch api m (args_sent x (self w) old) (api_state w) =
        (Raise e, s))).
Proof.
  unfold result, after.
  destruct (call_setter_cases m x w)
    as [[Hk Heq]|[(old & r' & s & Hk & Hr & Heq)|(old & e' & s & Hk & Hr & Heq)]];
    rewrite Heq; cbn [fst snd self calls]; intros Hres; try discriminate.
  - injection Hres as Hres. subst e. split; [reflexivity|]. left. auto.
  - injection Hres as Hres. subst e. split; [reflexivity|]. right.
    now exists old, s.
Qed.

(** ** The keys of the cache *)

Lemma call_setter_dom (m : api_method) (x : setting_write) (w : World) :
  dom (plant_settings (self (after (call_setter api m x) w))) =
  dom (plant_settings (self w)).
Proof.
  unfold after.
  destruct (call_setter_cases m x w)
    as [[Hk Heq]|[(old & r' & s & Hk & Hr & Heq)|(old & e' & s & Hk & Hr & Heq)]];
    rewrite Heq; cbn [snd self]; try reflexivity.
  cbn [store_plant_setting plant_settings].
  apply dom_insert_lookup_L. now exists old.
Qed.

Lemma perform_dom (o : operation) (w : World) :
  dom (plant_settings (self (perform PROC_REQ_TEMP api o w))) =
  dom (plant_settings (self w)).
Proof.
  destruct (is_write o) eqn:Hw; [|now rewrite perform_read].
  destruct o; try discriminate. apply call_setter_dom.
Qed.

(** X2. No operation of the class adds or removes a cache entry: over any
    sequence of operations the set of keys of [plant_settings] stays what it
    was.  A setter only ever overwrites an entry that is there. *)
Theorem operations_keep_cache_keys (os : list operation) (w : World) :
  dom (plant_settings (self (perform_all PROC_REQ_TEMP api os w))) =
  dom (plant_settings (self w)).
Proof.
  revert w. induction os as [|o os IH]; intros w; [reflexivity|].
  cbn [perform_all fold_left].
  fold (perform_all PROC_REQ_TEMP api os (perform PROC_REQ_TEMP api o w)).
  rewrite IH. apply perform_dom.
Qed.

Lemma perform_empty_cache (o : operation) (w : World) :
  plant_settings (self w) = ∅ → perform PROC_REQ_TEMP api o w = w.
Proof.
  intros Hempty.
  destruct (is_write o) eqn:Hw; [|now apply perform_read].
  destruct o as [m x| | | | | | ]; try discriminate. cbn [perform].
  unfold after. rewrite call_setter_missing; [reflexivity|].
  rewrite Hempty. apply lookup_empty.
Qed.

(** X3. A device as [__init__] leaves it has an empty cache, and no
    operation of the class fills it: whatever sequence of operations runs on
    a newly constructed device, the world (device, API state, call log)
    stays exactly as it was, and every setter call raises [KeyError] for
    its key. *)
Theorem new_device_is_inert
    (super_init : gmap string value → AristonDevice)
    (attributes : gmap string value)
    (is_metric : option bool) (tag : option string)
    (s : ApiState) (log : list api_call) (os : list operation) :
  perform_all PROC_REQ_TEMP api os
    {| self := init super_init attributes is_metric tag;
       api_state := s; calls := log |} =
    {| self := init super_init attributes is_metric tag;
       api_state := s; calls := log |} ∧
  ∀ (m : api_method) (x : setting_write),
    result (call_setter api m x)
      {| self := init super_init attributes is_metric tag;
         api_state := s; calls := log |} =
    Raise (KeyError (target_key x)).
Proof.
  split.
  - induction os as [|o os IH]; [reflexivity|].
    cbn [perform_all fold_left]. rewrite perform_empty_cache; [|reflexivity].
    exact IH.
  - intros m x. unfold result.
    rewrite call_setter_missing; [reflexivity|]. apply lookup_empty.
Qed.

(** ** Two setter calls in a row *)

(** X4. When two setter calls in a row both return, the cache is the
    starting cache with the first value stored under the first key and then
    the second under the second; with the same key the first write leaves no
    trace: the last write wins. *)
Theorem consecutive_writes_last_wins
    (m1 m2 : api_method) (x1 x2 : setting_write) (w : World) (r1 r2 : value) :
  result (call_setter api m1 x1) w = Return r1 →
  result (call_setter api m2 x2) (after (call_setter api m1 x1) w) = Return r2 →
  plant_settings
    (self (after (call_setter api m2 x2) (after (call_setter api m1 x1) w))) =
    <[target_key x2 := cached_value x2]>
      (<[target_key x1 := cached_value x1]> (plant_settings (self w))) ∧
  (target_key x1 = target_key x2 →
   plant_settings
     (self (after (call_setter api m2 x2) (after (call_setter api m1 x1) w))) =
     <[target_key x2 := cached_value x2]> (plant_settings (self w))).
Proof.
  intros H1 H2.
  destruct (call_setter_returned_world _ _ _ _ H1) as (old1 & s1 & Hk1 & Hw1).
  destruct (call_setter_returned_world _ _ _ _ H2) as (old2 & s2 & Hk2 & Hw2).
  rewrite Hw2. cbn [self]. rewrite Hw1. cbn [self store_plant_setting plant_settings].
  split; [reflexivity|]. intros ->. apply insert_insert_eq.
Qed.

Lemma old_value_of_cached (x1 x2 : setting_write) :
  same_setting x1 x2 = true →
  target_key x2 = target_key x1 ∧
  old_value_sent x2 (cached_value x1) = new_value_sent x1.
Proof.
  destruct x1 as [b1|v1], x2 as [b2|v2]; cbn; intros Hs;
    try discriminate; auto.
Qed.

(** X5. When two calls for the same setting both return, one after the
    other and through either variant, exactly two remote calls are added to
    the log, and the old value the second hands over is the new value the
    first handed over. *)
Theorem second_write_sends_first_as_old
    (m1 m2 : api_method) (x1 x2 : setting_write) (w : World) (r1 r2 : value) :
  same_setting x1 x2 = true →
  result (call_setter api m1 x1) w = Return r1 →
  result (call_setter api m2 x2) (after (call_setter api m1 x1) w) = Return r2 →
  ∃ a1 a2 : PlantSettingArgs,
    calls (after (call_setter api m2 x2) (after (call_setter api m1 x1) w)) =
      calls w ++ [ {| call_method := m1; call_args := a1 |};
                   {| call_method := m2; call_args := a2 |} ] ∧
    arg_old_value a2 = arg_new_value a1.
Proof.
  intros Hs H1 H2.
  destruct (old_value_of_cached _ _ Hs) as [Hkey Hold].
  destruct (call_setter_returned_world _ _ _ _ H1) as (old1 & s1 & Hk1 & Hw1).
  destruct (call_setter_returned_world _ _ _ _ H2) as (old2 & s2 & Hk2 & Hw2).
  rewrite Hw1 in Hk2. cbn [self store_plant_setting plant_settings] in Hk2.
  rewrite Hkey, lookup_insert_eq in Hk2. injection Hk2 as Hk2. subst old2.
  eexists _, _. rewrite Hw2. cbn [calls]. rewrite Hw1. cbn [calls].
  rewrite <- app_assoc. split; [reflexivity|]. exact Hold.
Qed.

(** X6. When a setter call fails in the remote method, calling the setter
    again with the same argument, through either variant, hands the remote
    method the very same six arguments: the log holds the two calls, equal
    but for the method. *)
Theorem retry_sends_the_same_arguments
    (m1 m2 : api_method) (x : setting_write) (w : World)
    (old : value) (e : exn ApiExn) :
  plant_settings (self w) !! target_key x = Some old →
  result (call_setter api m1 x) w = Raise e →
  calls (after (call_setter api m2 x) (after (call_setter api m1 x) w)) =
    calls w ++
    [ {| call_method := m1; call_args := args_sent x (self w) old |};
      {| call_method := m2; call_args := args_sent x (self w) old |} ].
Proof.
  intros Hk Hres.
  assert (Hself : self (after (call_setter api m1 x) w) = self w).
  { unfold result, after in *.
    destruct (call_setter_cases m1 x w)
      as [[Hk' Heq]|[(o & r' & s & Hk' & Hr & Heq)|(o & e' & s & Hk' & Hr & Heq)]];
      rewrite Heq in *; cbn [fst snd self] in *;
      try discriminate; congruence. }
  rewrite (call_setter_logged m2 x _ old) by (now rewrite Hself).
  rewrite (call_setter_logged m1 x w old Hk), Hself.
  now rewrite <- app_assoc.
Qed.

Lemma store_plant_setting_same (k : string) (v : value)
    (d : @AristonVelisDevice PlantData Gateway) :
  plant_settings d !! k = Some v → store_plant_setting k v d = d.
Proof.
  intros Hk. destruct d as [b ps u l t]. unfold store_plant_setting.
  cbn in *. now rewrite insert_id.
Qed.

(** X7. A setter does not look whether the value changes: when the cache
    already holds the very value being written and the call returns, the
    remote method has still been called once, and the device object is what
    it was. *)
Theorem rewriting_the_cached_value
    (m : api_method) (x : setting_write) (w : World) (r : value) :
  plant_settings (self w) !! target_key x = Some (cached_value x) →
  result (call_setter api m x) w = Return r →
  self (after (call_setter api m x) w) = self w ∧
  calls (after (call_setter api m x) w) =
    calls w ++
    [ {| call_method := m;
         call_args := args_sent x (self w) (cached_value x) |} ].
Proof.
  intros Hk Hres. split; [|now apply call_setter_logged].
  destruct (call_setter_returned_world _ _ _ _ Hres) as (old & s & _ & Hw).
  rewrite Hw. cbn [self]. now apply store_plant_setting_same.
Qed.

(** X8. Writes under different keys commute on the device: when the two
    calls return in either order, the device object they leave is the same. *)
Theorem writes_to_other_keys_commute
    (m1 m2 : api_method) (x1 x2 : setting_write) (w : World)
    (r1 r2 r3 r4 : value) :
  target_key x1 ≠ target_key x2 →
  result (call_setter api m1 x1) w = Return r1 →
  result (call_setter api m2 x2) (after (call_setter api m1 x1) w) = Return r2 →
  result (call_setter api m2 x2) w = Return r3 →
  result (call_setter api m1 x1) (after (call_setter api m2 x2) w) = Return r4 →
  self (after (call_setter api m2 x2) (after (call_setter api m1 x1) w)) =
  self (after (call_setter api m1 x1) (after (call_setter api m2 x2) w)).
Proof.
  intros Hne H1 H2 H3 H4.
  destruct (call_setter_returned_world _ _ _ _ H1) as (o1 & s1 & _ & Hw1).
  destruct (call_setter_returned_world _ _ _ _ H2) as (o2 & s2 & _ & Hw2).
  destruct (call_setter_returned_world _ _ _ _ H3) as (o3 & s3 & _ & Hw3).
  destruct (call_setter_returned_world _ _ _ _ H4) as (o4 & s4 & _ & Hw4).
  rewrite Hw2, Hw4. cbn [self]. rewrite Hw1, Hw3. cbn [self].
  unfold store_plant_setting. cbn [base plant_settings umsys unit language_tag].
  f_equal. now apply insert_insert_ne.
Qed.

(** ** The remote calls of a sequence of operations *)

Lemma names_device_frame (d d' : @AristonVelisDevice PlantData Gateway)
    (c : api_call) :
  base d' = base d → umsys d' = umsys d →
  names_device d c → names_device d' c.
Proof. unfold names_device. intros -> ->. trivial. Qed.

Lemma args_sent_names_device (m : api_method) (x : setting_write)
    (d : @AristonVelisDevice PlantData Gateway) (old : value) :
  names_device d {| call_method := m; call_args := args_sent x d old |}.
Proof.
  unfold names_device. cbn. repeat split. destruct x; cbn; auto.
Qed.

Lemma perform_calls (o : operation) (w : World) :
  ∃ l : list api_call,
    calls (perform PROC_REQ_TEMP api o w) = calls w ++ l ∧
    (length l ≤ if is_write o then 1 else 0)%nat ∧
    Forall (names_device (self w)) l.
Proof.
  destruct (is_write o) eqn:Hw.
  - destruct o as [m x| | | | | | ]; try discriminate. cbn [perform].
    destruct (plant_settings (self w) !! target_key x) as [old|] eqn:Hk.
    + eexists. rewrite (call_setter_logged m x w old Hk).
      split; [reflexivity|]. split; [cbn; lia|].
      constructor; [apply args_sent_names_device|constructor].
    + exists []. unfold after. rewrite (call_setter_missing _ m x w Hk).
      cbn [snd]. rewrite app_nil_r. repeat split; [cbn; lia|constructor].
  - exists []. rewrite perform_read by assumption.
    rewrite app_nil_r. repeat split; [cbn; lia|constructor].
Qed.

Lemma perform_all_calls (os : list operation) (w : World) :
  ∃ l : list api_call,
    calls (perform_all PROC_REQ_TEMP api os w) = calls w ++ l ∧
    (length l ≤ length (List.filter is_write os))%nat ∧
    Forall (names_device (self w)) l.
Proof.
  revert w. induction os as [|o os IH]; intros w.
  - exists []. cbn. rewrite app_nil_r. repeat split; [lia|constructor].
  - cbn [perform_all fold_left].
    fold (perform_all PROC_REQ_TEMP api os (perform PROC_REQ_TEMP api o w)).
    destruct (perform_calls o w) as (l1 & Hl1 & Hn1 & Hd1).
    destruct (IH (perform PROC_REQ_TEMP api o w)) as (l2 & Hl2 & Hn2 & Hd2).
    destruct (perform_frame PROC_REQ_TEMP api o w) as (Hbase & Humsys & _).
    exists (l1 ++ l2). rewrite Hl2, Hl1, <- app_assoc.
    split; [reflexivity|]. split.
    + rewrite length_app. cbn [List.filter].
      destruct (is_write o); cbn [length]; lia.
    + apply Forall_app. split; [assumption|].
      eapply Forall_impl; [exact Hd2|].
      intros c. now apply names_device_frame.
Qed.

(** X9. Over any sequence of operations the call log only grows at its
    end, and by no more remote calls than the sequence has setter calls: a
    setter calls the remote method at most once, every other operation
    never. *)
Theorem remote_calls_bounded_by_writes (os : list operation) (w : World) :
  ∃ l : list api_call,
    calls (perform_all PROC_REQ_TEMP api os w) = calls w ++ l ∧
    (length l ≤ length (List.filter is_write os))%nat.
Proof.
  destruct (perform_all_calls os w) as (l & Hl & Hn & _). now exists l.
Qed.

(** X10. Every remote call issued over a sequence of operations carries
    the plant data, the gateway and the unit system the device had at the
    start, and one of the two setting keys of the class. *)
Theorem remote_calls_name_the_device (os : list operation) (w : World) :
  ∃ l : list api_call,
    calls (perform_all PROC_REQ_TEMP api os w) = calls w ++ l ∧
    Forall (names_device (self w)) l.
Proof.
  destruct (perform_all_calls os w) as (l & Hl & _ & Hd). now exists l.
Qed.

(** X11. The accessors can be dropped from any sequence of operations:
    the world after the sequence is the world after its setter calls alone. *)
Theorem accessors_are_transparent (os : list operation) (w : World) :
  perform_all PROC_REQ_TEMP api os w =
  perform_all PROC_REQ_TEMP api (List.filter is_write os) w.
Proof.
  revert w. induction os as [|o os IH]; intros w; [reflexivity|].
  cbn [perform_all fold_left List.filter].
  fold (perform_all PROC_REQ_TEMP api os (perform PROC_REQ_TEMP api o w)).
  destruct (is_write o) eqn:Hw.
  - cbn [fold_left]. apply IH.
  - rewrite perform_read by assumption. apply IH.
Qed.

(** X12. No operation of the class changes what [proc_req_temp_value]
    returns: the setters write to [plant_settings], never to [data]. *)
Theorem proc_req_temp_value_unaffected (os : list operation) (w : World) :
  result (proc_req_temp_value PROC_REQ_TEMP)
    (perform_all PROC_REQ_TEMP api os w) =
  result (proc_req_temp_value PROC_REQ_TEMP) w.
Proof.
  unfold result. rewrite !proc_req_temp_value_eq. cbn [fst].
  destruct (perform_all_frame PROC_REQ_TEMP api os w) as (-> & _).
  reflexivity.
Qed.

(** X13. Whatever object the cache holds under the anti-legionella key,
    the remote call of [set_antilegionella] and of its coroutine variant
    carries 0.0 or 1.0 as new value and 0.0 or 1.0 as old value. *)
Theorem antilegionella_sends_zero_or_one
    (m : api_method) (anti_leg : bool) (w : World) :
  ∃ l : list api_call,
    calls (after (call_setter api m (Antilegionella anti_leg)) w) =
      calls w ++ l ∧
    Forall (fun c => zero_or_one (arg_new_value (call_args c)) ∧
                     zero_or_one (arg_old_value (call_args c))) l.
Proof.
  destruct (plant_settings (self w) !! target_key (Antilegionella anti_leg))
    as [old|] eqn:Hk.
  - eexists. rewrite (call_setter_logged m _ w old Hk).
    split; [reflexivity|]. constructor; [|constructor].
    unfold zero_or_one. cbn.
    destruct anti_leg, (truthy old); auto.
  - exists []. unfold after. rewrite (call_setter_missing _ m _ w Hk).
    cbn [snd]. rewrite app_nil_r. split; [reflexivity|constructor].
Qed.

(** X14. A setter call returns exactly when its key is in the cache and
    the remote method returns on the call; and what it returns is [None],
    whatever the remote method returned. *)
Theorem setter_returns_none
    (m : api_method) (x : setting_write) (w : World) :
  (∀ r : value, result (call_setter api m x) w = Return r → r = VNone) ∧
  ((∃ r : value, result (call_setter api m x) w = Return r) ↔
   (∃ (old r' : value) (s : ApiState),
      plant_settings (self w) !! target_key x = Some old ∧
      api_dispatch api m (args_sent x (self w) old) (api_state w) =
        (Return r', s))).
Proof.
  unfold result.
  destruct (call_setter_cases m x w)
    as [[Hk Heq]|[(old & r' & s & Hk & Hr & Heq)|(old & e & s & Hk & Hr & Heq)]];
    rewrite Heq; cbn [fst].
  - split; [discriminate|]. split.
    + intros [r Hres]. discriminate.
    + intros (old & r' & s & Hk' & _). congruence.
  - split; [congruence|]. split.
    + intros _. now exists old, r', s.
    + intros _. now exists VNone.
  - split; [discriminate|]. split.
    + intros [r Hres]. discriminate.
    + intros (old' & r' & s' & Hk' & Hr'). congruence.
Qed.

End VelisSequences.

(** ** The concrete device, evaluated *)

#[local] Existing Instance scenario_properties.

(** [set_antilegionella(True)] sends new value 1.0 and old value 0.0. *)
Example scenario_set_antilegionella_call :
  calls (after (set_antilegionella scenario_accepting_api true)
           (scenario_world scenario_device)) =
  [ {| call_method := SetVelisPlantSetting;
       call_args := {| arg_plant_data := "PD_VELIS";
                       arg_gw := "F0AD4E0A1B2C";
                       arg_setting := "AntiLeg";
                       arg_new_value := VFloat 1.0;
                       arg_old_value := VFloat 0.0;
                       arg_umsys := "si" |} |} ].
Proof. reflexivity. Qed.

Example scenario_set_antilegionella_read_back :
  result (ApiExn := string) water_anti_leg_value
    (after (set_antilegionella scenario_accepting_api true)
       (scenario_world scenario_device)) = Return (VBool true).
Proof. reflexivity. Qed.

(** [set_max_setpoint_temp(65.0)] sends new value 65.0 and old value 60.0. *)
Example scenario_set_max_setpoint_temp_call :
  calls (after (async_set_max_setpoint_temp scenario_accepting_api 65.0)
           (scenario_world scenario_device)) =
  [ {| call_method := AsyncSetVelisPlantSetting;
       call_args := {| arg_plant_data := "PD_VELIS";
                       arg_gw := "F0AD4E0A1B2C";
                       arg_setting := "MaxSetpoint";
                       arg_new_value := VFloat 65.0;
                       arg_old_value := VFloat 60.0;
                       arg_umsys := "si" |} |} ].
Proof. reflexivity. Qed.

Example scenario_set_max_setpoint_temp_read_back :
  result (ApiExn := string) water_heater_maximum_temperature
    (after (set_max_setpoint_temp scenario_accepting_api 65.0)
       (scenario_world scenario_device)) = Return (VFloat 65.0).
Proof. reflexivity. Qed.

(** A failing remote call leaves the cache as it was. *)
Example scenario_remote_failure :
  result (set_max_setpoint_temp scenario_failing_api 65.0)
    (scenario_world scenario_device) = Raise (ApiError "HTTP 503") ∧
  result (ApiExn := string) water_heater_maximum_setpoint_temperature
    (after (set_max_setpoint_temp scenario_failing_api 65.0)
       (scenario_world scenario_device)) = Return (VFloat 60.0).
Proof. split; reflexivity. Qed.

(** Before the first refresh the cache is empty: the setters raise
    [KeyError], the accessors return [None]. *)
Example scenario_before_refresh :
  set_antilegionella scenario_accepting_api true (scenario_world scenario_new_device) =
    (Raise (KeyError "AntiLeg"), scenario_world scenario_new_device) ∧
  result (ApiExn := string) water_anti_leg_value
    (scenario_world scenario_new_device) = Return VNone.
Proof. split; reflexivity. Qed.

(** ** The theorems at the concrete device *)

Lemma set_antilegionella_forwards_then_caches_witness :
  result (call_setter scenario_accepting_api SetVelisPlantSetting
            (Antilegionella true)) (scenario_world scenario_device) =
    Return VNone ∧
  result (ApiExn := string) water_anti_leg_value
    (after (call_setter scenario_accepting_api SetVelisPlantSetting
              (Antilegionella true)) (scenario_world scenario_device)) =
    Return (VBool true).
Proof.
  assert (Hret : result (call_setter scenario_accepting_api SetVelisPlantSetting
                           (Antilegionella true))
                   (scenario_world scenario_device) = Return VNone)
    by reflexivity.
  split; [exact Hret|].
  destruct (set_antilegionella_forwards_then_caches scenario_accepting_api
              SetVelisPlantSetting true (scenario_world scenario_device)
              VNone Hret) as (old & r' & _ & _ & _ & Hread).
  exact Hread.
Defined.



Lemma remote_failure_propagates_and_keeps_cache_witness :
  result (call_setter scenario_failing_api SetVelisPlantSetting
            (Antilegionella true)) (scenario_world scenario_device) =
    Raise (ApiError "HTTP 503") ∧
  self (after (call_setter scenario_failing_api SetVelisPlantSetting
                 (Antilegionella true)) (scenario_world scenario_device)) =
    scenario_device ∧
  plant_settings
    (self (after (call_setter scenario_failing_api SetVelisPlantSetting
                    (Antilegionella true)) (scenario_world scenario_device)))
    !! "AntiLeg" = Some (VBool false).
Proof.
  exact (remote_failure_propagates_and_keeps_cache scenario_failing_api
           SetVelisPlantSetting (Antilegionella true)
           (scenario_world scenario_device) (VBool false)
           (ApiError "HTTP 503") 0 eq_refl eq_refl).
Defined.

Lemma set_antilegionella_missing_key_witness :
  result (call_setter scenario_accepting_api AsyncSetVelisPlantSetting
            (Antilegionella false)) (scenario_world scenario_new_device) =
    Raise (KeyError "AntiLeg") ∧
  after (call_setter scenario_accepting_api AsyncSetVelisPlantSetting
           (Antilegionella false)) (scenario_world scenario_new_device) =
    scenario_world scenario_new_device ∧
  plant_settings
    (self (after (call_setter scenario_accepting_api AsyncSetVelisPlantSetting
                    (Antilegionella false)) (scenario_world scenario_new_device)))
    !! "AntiLeg" = None.
Proof.
  exact (set_antilegionella_missing_key scenario_accepting_api
           AsyncSetVelisPlantSetting false (scenario_world scenario_new_device)
           eq_refl).
Defined.

Lemma sync_async_identical_semantics_witness :
  result (call_setter scenario_accepting_api SetVelisPlantSetting
            (MaxSetpointTemp 65.0)) (scenario_world scenario_device) =
    result (call_setter scenario_accepting_api AsyncSetVelisPlantSetting
              (MaxSetpointTemp 65.0)) (scenario_world scenario_device) ∧
  self (after (call_setter scenario_accepting_api SetVelisPlantSetting
                 (MaxSetpointTemp 65.0)) (scenario_world scenario_device)) =
    self (after (call_setter scenario_accepting_api AsyncSetVelisPlantSetting
                   (MaxSetpointTemp 65.0)) (scenario_world scenario_device)) ∧
  api_state (after (call_setter scenario_accepting_api SetVelisPlantSetting
                      (MaxSetpointTemp 65.0)) (scenario_world scenario_device)) =
    api_state (after (call_setter scenario_accepting_api AsyncSetVelisPlantSetting
                        (MaxSetpointTemp 65.0)) (scenario_world scenario_device)).
Proof.
  exact (proj2 (proj2 (sync_async_identical_semantics scenario_accepting_api
                         (MaxSetpointTemp 65.0) (scenario_world scenario_device)))
           (fun a => eq_refl)).
Defined.

Lemma accessors_are_pure_reads_witness :
  result (ApiExn := string) (read_accessor "ProcReqTemp" ProcReqTempValue)
    (scenario_world scenario_device) = Return VNone ∧
  result (ApiExn := string)
    (read_accessor "ProcReqTemp" WaterHeaterMaximumSetpointTemperature)
    (scenario_world scenario_device) = Return (VFloat 60.0).
Proof.
  split.
  - exact (proj1 (proj2 (accessors_are_pure_reads "ProcReqTemp" ProcReqTempValue
                           (scenario_world scenario_device))) eq_refl).
  - exact (proj2 (proj2 (accessors_are_pure_reads "ProcReqTemp"
                           WaterHeaterMaximumSetpointTemperature
                           (scenario_world scenario_device)))
             (VFloat 60.0) eq_refl).
Defined.

Lemma operations_frame_witness :
  plant_settings
    (self (after (call_setter scenario_accepting_api SetVelisPlantSetting
                    (Antilegionella true)) (scenario_world scenario_device)))
    !! "MaxSetpoint" = Some (VFloat 60.0).
Proof.
  rewrite (proj2 (proj2 (operations_frame "ProcReqTemp" scenario_accepting_api)
                    SetVelisPlantSetting (Antilegionella true)
                    (scenario_world scenario_device)) "MaxSetpoint").
  - reflexivity.
  - discriminate.
Defined.

Lemma missing_key_never_reaches_remote_witness :
  result (call_setter scenario_accepting_api SetVelisPlantSetting
            (MaxSetpointTemp 65.0)) (scenario_world scenario_new_device) =
    Raise (KeyError "MaxSetpoint") ∧
  calls (after (call_setter scenario_accepting_api SetVelisPlantSetting
                  (MaxSetpointTemp 65.0)) (scenario_world scenario_new_device)) =
    [] ∧
  api_state (after (call_setter scenario_accepting_api SetVelisPlantSetting
                      (MaxSetpointTemp 65.0)) (scenario_world scenario_new_device)) =
    0 ∧
  call_setter scenario_accepting_api SetVelisPlantSetting
    (MaxSetpointTemp 65.0) (scenario_world scenario_new_device) =
  call_setter scenario_failing_api SetVelisPlantSetting
    (MaxSetpointTemp 65.0) (scenario_world scenario_new_device).
Proof.
  exact (missing_key_never_reaches_remote scenario_accepting_api
           scenario_failing_api SetVelisPlantSetting (MaxSetpointTemp 65.0)
           (scenario_world scenario_new_device) eq_refl).
Defined.

(** ** Sequences of calls at the concrete device *)

Lemma setter_failure_leaves_device_witness :
  result (call_setter scenario_failing_api AsyncSetVelisPlantSetting
            (MaxSetpointTemp 65.0)) (scenario_world scenario_device) =
    Raise (ApiError "HTTP 503") ∧
  self (after (call_setter scenario_failing_api AsyncSetVelisPlantSetting
                 (MaxSetpointTemp 65.0)) (scenario_world scenario_device)) =
    scenario_device.
Proof.
  split; [reflexivity|].
  exact (proj1 (setter_failure_leaves_device scenario_failing_api
                  AsyncSetVelisPlantSetting (MaxSetpointTemp 65.0)
                  (scenario_world scenario_device) (ApiError "HTTP 503")
                  eq_refl)).
Defined.

Lemma consecutive_writes_last_wins_witness :
  plant_settings
    (self (after (call_setter scenario_accepting_api AsyncSetVelisPlantSetting
                    (MaxSetpointTemp 70.0))
             (after (call_setter scenario_accepting_api SetVelisPlantSetting
                       (MaxSetpointTemp 65.0))
                (scenario_world scenario_device)))) =
  <["MaxSetpoint" := VFloat 70.0]> (plant_settings scenario_device).
Proof.
  exact (proj2 (consecutive_writes_last_wins scenario_accepting_api
                  SetVelisPlantSetting AsyncSetVelisPlantSetting
                  (MaxSetpointTemp 65.0) (MaxSetpointTemp 70.0)
                  (scenario_world scenario_device) VNone VNone
                  eq_refl eq_refl) eq_refl).
Defined.

Lemma second_write_sends_first_as_old_witness :
  ∃ a1 a2 : @PlantSettingArgs string string,
    calls (after (call_setter scenario_accepting_api AsyncSetVelisPlantSetting
                    (Antilegionella false))
             (after (call_setter scenario_accepting_api SetVelisPlantSetting
                       (Antilegionella true))
                (scenario_world scenario_device))) =
      calls (scenario_world scenario_device) ++
      [ {| call_method := SetVelisPlantSetting; call_args := a1 |};
        {| call_method := AsyncSetVelisPlantSetting; call_args := a2 |} ] ∧
    arg_old_value a2 = arg_new_value a1.
Proof.
  exact (second_write_sends_first_as_old scenario_accepting_api
           SetVelisPlantSetting AsyncSetVelisPlantSetting
           (Antilegionella true) (Antilegionella false)
           (scenario_world scenario_device) VNone VNone
           eq_refl eq_refl eq_refl).
Defined.

Lemma retry_sends_the_same_arguments_witness :
  calls (after (call_setter scenario_failing_api AsyncSetVelisPlantSetting
                  (MaxSetpointTemp 65.0))
           (after (call_setter scenario_failing_api SetVelisPlantSetting
                     (MaxSetpointTemp 65.0))
              (scenario_world scenario_device))) =
  [ {| call_method := SetVelisPlantSetting;
       call_args := args_sent (MaxSetpointTemp 65.0) scenario_device
                      (VFloat 60.0) |};
    {| call_method := AsyncSetVelisPlantSetting;
       call_args := args_sent (MaxSetpointTemp 65.0) scenario_device
                      (VFloat 60.0) |} ].
Proof.
  exact (retry_sends_the_same_arguments scenario_failing_api
           SetVelisPlantSetting AsyncSetVelisPlantSetting
           (MaxSetpointTemp 65.0) (scenario_world scenario_device)
           (VFloat 60.0) (ApiError "HTTP 503") eq_refl eq_refl).
Defined.

Lemma rewriting_the_cached_value_witness :
  self (after (call_setter scenario_accepting_api SetVelisPlantSetting
                 (Antilegionella false)) (scenario_world scenario_device)) =
    scenario_device ∧
  calls (after (call_setter scenario_accepting_api SetVelisPlantSetting
                  (Antilegionella false)) (scenario_world scenario_device)) =
    [ {| call_method := SetVelisPlantSetting;
         call_args := args_sent (Antilegionella false) scenario_device
                        (VBool false) |} ].
Proof.
  exact (rewriting_the_cached_value scenario_accepting_api
           SetVelisPlantSetting (Antilegionella false)
           (scenario_world scenario_device) VNone eq_refl eq_refl).
Defined.

Lemma writes_to_other_keys_commute_witness :
  self (after (call_setter scenario_accepting_api SetVelisPlantSetting
                 (MaxSetpointTemp 65.0))
          (after (call_setter scenario_accepting_api SetVelisPlantSetting
                    (Antilegionella true))
             (scenario_world scenario_device))) =
  self (after (call_setter scenario_accepting_api SetVelisPlantSetting
                 (Antilegionella true))
          (after (call_setter scenario_accepting_api SetVelisPlantSetting
                    (MaxSetpointTemp 65.0))
             (scenario_world scenario_device))).
Proof.
  refine (writes_to_other_keys_commute scenario_accepting_api
            SetVelisPlantSetting SetVelisPlantSetting
            (Antilegionella true) (MaxSetpointTemp 65.0)
            (scenario_world scenario_device) VNone VNone VNone VNone
            _ eq_refl eq_refl eq_refl eq_refl).
  discriminate.
Defined.

Lemma setter_returns_none_witness :
  ∃ r : value,
    result (call_setter scenario_answering_api SetVelisPlantSetting
              (MaxSetpointTemp 65.0)) (scenario_world scenario_device) =
    Return r.
Proof.
  apply (proj2 (proj2 (setter_returns_none scenario_answering_api
                         SetVelisPlantSetting (MaxSetpointTemp 65.0)
                         (scenario_world scenario_device)))).
  exists (VFloat 60.0), (VStr "OK"), 1. split; reflexivity.
Defined.

(** The server's answer is dropped. *)
Example scenario_answer_dropped :
  result (call_setter scenario_answering_api SetVelisPlantSetting
            (MaxSetpointTemp 65.0)) (scenario_world scenario_device) =
  Return VNone.
Proof. reflexivity. Qed.
